(** * DocChat: the walkthrough notebook as a program over its libraries

    The repository is one Jupyter notebook, [notebooks/walkthrough.ipynb].
    Its nine code cells are straight-line Python: every capability is a
    call into LangChain, Chroma or OpenAI.  The notebook is embedded here
    as a state-and-exception program over an arbitrary implementation of
    those libraries; what is proved holds for every such implementation.
    Import statements are not part of the model. *)

From Stdlib Require Import ZArith Ascii String List DecimalString DecimalNat.
From stdpp Require Import base option list strings gmap.

Local Open Scope string_scope.
Local Open Scope Z_scope.

(** ** Python values the notebook handles itself *)

(** Exceptions.  The first four are raised by the interpreter on the
    notebook's own statements (an unbound name, [docs[0]] on an empty
    list, [result["answer"]] on a missing key, a value [os.environ]
    refuses); a library may raise anything. *)
Inductive exn : Type :=
  | NameError (name : string)
  | IndexError
  | KeyError (key : string)
  | ValueError (message : string)
  | LibraryError (what : string).

(** The outcome of evaluating an expression: a value or a raised
    exception. *)
Inductive res (A : Type) : Type :=
  | Ok (a : A)
  | Raise (e : exn).
Arguments Ok {A} a.
Arguments Raise {A} e.

Definition raised {A} (r : res A) : option exn :=
  match r with Ok _ => None | Raise e => Some e end.

(** A LangChain [Document]: the text and the source metadata. *)
Record Document : Type := mkDocument {
  page_content : string;
  metadata : gmap string string }.

(** [len(s)] and [str(n)] (the rendering an f-string or [print] uses for
    an [int]). *)
Definition len (s : string) : nat := String.length s.
Definition str (n : nat) : string := NilEmpty.string_of_uint (Nat.to_uint n).

(** [sum(l)]: Python adds from the left, starting at 0. *)
Definition sum (l : list nat) : nat := fold_left Nat.add l 0%nat.

(** What [os.putenv] checks before it sets a variable: no NUL character
    in the name or in the value, and a name that is not empty and holds
    no [=]. *)
Fixpoint has_char (a : ascii) (s : string) : bool :=
  match s with
  | EmptyString => false
  | String b s' => Ascii.eqb a b || has_char a s'
  end.
Definition has_nul (s : string) : bool := has_char "000"%char s.
Definition illegal_name (s : string) : bool :=
  match s with
  | EmptyString => true
  | _ => has_char "="%char s
  end.

(** ** The libraries, as an interface *)

(** The objects the libraries hand back are opaque to the notebook. *)
Class Langchain : Type := {
  Loader : Type;
  Splitter : Type;
  Embeddings : Type;
  VectorStore : Type;
  Retriever : Type;
  LLM : Type;
  Chain : Type }.

Section Notebook.
Context `{Langchain}.

(** Every library call the notebook makes, with its arguments as written
    in the cell, indexed by the type of what it returns. *)
Inductive call : Type → Type :=
  | Getpass (prompt : string) : call string
  | DirectoryLoader (path glob : string) : call Loader
  | Load (l : Loader) : call (list Document)
  | CharacterTextSplitter (chunk_size chunk_overlap : Z) : call Splitter
  | SplitDocuments (s : Splitter) (ds : list Document) : call (list Document)
  | OpenAIEmbeddings : call Embeddings
  | ChromaFromDocuments (ds : list Document) (e : Embeddings) : call VectorStore
  | SimilaritySearch (vs : VectorStore) (q : string) : call (list Document)
  | AsRetriever (vs : VectorStore) (search_type : string)
      (search_kwargs : gmap string Z) : call Retriever
  | OpenAI (temperature : Z) : call LLM
  | FromLLM (llm : LLM) (r : Retriever) : call Chain
  | CallChain (c : Chain) (question : string)
      (history : list (string * string)) : call (gmap string string).

(** An implementation of the libraries: what each call returns or raises,
    given the process environment it runs in.  A call hands back a value;
    it does not rebind the notebook's variables. *)
Variable lib : gmap string string → ∀ T, call T → res T.

(** One entry of the execution trace: the call made and whether it
    raised. *)
Record event : Type := Ev {
  ev_type : Type;
  ev_call : call ev_type;
  ev_raised : option exn }.
Arguments Ev {_} _ _.

(** ** The kernel state *)

(** The notebook's global variables; [None] is an unbound name. *)
Record Vars : Type := mkVars {
  pdf_loader : option Loader;
  documents : option (list Document);
  num_docs : option nat;
  num_chars : option nat;
  text_splitter : option Splitter;
  embeddings : option Embeddings;
  vectorstore : option VectorStore;
  text : option string;
  docs : option (list Document);
  retriever : option Retriever;
  chatbot : option Chain;
  chat_history : option (list (string * string));
  query : option string;
  result : option (gmap string string) }.

Record Kernel : Type := mkKernel {
  environ : gmap string string;
  stdout : list string;
  trace : list event;
  vars : Vars }.

Definition no_vars : Vars :=
  mkVars None None None None None None None None None None None None None None.

(** A kernel that has run nothing yet. *)
Definition fresh (env : gmap string string) : Kernel := mkKernel env [] [] no_vars.

(** Statements: they change the kernel and return or raise.  The kernel
    keeps what was done before an exception. *)
Definition M (A : Type) : Type := Kernel → res A * Kernel.

Definition ret {A} (a : A) : M A := λ k, (Ok a, k).

Definition bind {A B} (m : M A) (f : A → M B) : M B :=
  λ k, match m k with
       | (Ok a, k') => f a k'
       | (Raise e, k') => (Raise e, k')
       end.

Definition raise {A} (e : exn) : M A := λ k, (Raise e, k).

#[global] Instance M_ret : MRet M := @ret.
#[global] Instance M_bind : MBind M := λ A B f m, bind m f.

(** Reading a global name; [NameError] when it is unbound. *)
Definition name {A} (x : string) (var : Vars → option A) : M A :=
  λ k, match var (vars k) with
       | Some v => (Ok v, k)
       | None => (Raise (NameError x), k)
       end.

(** Binding a global name. *)
Definition assign (upd : Vars → Vars) : M unit :=
  λ k, (Ok tt, mkKernel (environ k) (stdout k) (trace k) (upd (vars k))).

(** [print(s)]. *)
Definition print (s : string) : M unit :=
  λ k, (Ok tt, mkKernel (environ k) (stdout k ++ [s]) (trace k) (vars k)).

(** [os.environ[key] = value].  The assignment goes through [putenv],
    which raises [ValueError] for a NUL character in the name or in the
    value and for an illegal name; the variable is set only when
    [putenv] has accepted it. *)
Definition environ_set (key value : string) : M unit :=
  λ k, if has_nul key || has_nul value
       then (Raise (ValueError "embedded null byte"), k)
       else if illegal_name key
       then (Raise (ValueError "illegal environment variable name"), k)
       else (Ok tt,
             mkKernel (<[key := value]> (environ k)) (stdout k) (trace k) (vars k)).

(** A library call: the library answers in the current environment and
    the call is recorded. *)
Definition invoke {T} (c : call T) : M T :=
  λ k, let r := lib (environ k) T c in
       (r, mkKernel (environ k) (stdout k) (trace k ++ [Ev c (raised r)]) (vars k)).

(** [l[0]] and [d[key]]. *)
Definition first {A} (l : list A) : M A :=
  match l with
  | x :: _ => ret x
  | [] => raise IndexError
  end.

Definition getitem (d : gmap string string) (key : string) : M string :=
  match d !! key with
  | Some v => ret v
  | None => raise (KeyError key)
  end.

Definition set_pdf_loader v (s : Vars) : Vars :=
  mkVars (Some v) (documents s) (num_docs s) (num_chars s) (text_splitter s)
    (embeddings s) (vectorstore s) (text s) (docs s) (retriever s) (chatbot s)
    (chat_history s) (query s) (result s).
Definition set_documents v (s : Vars) : Vars :=
  mkVars (pdf_loader s) (Some v) (num_docs s) (num_chars s) (text_splitter s)
    (embeddings s) (vectorstore s) (text s) (docs s) (retriever s) (chatbot s)
    (chat_history s) (query s) (result s).
Definition set_num_docs v (s : Vars) : Vars :=
  mkVars (pdf_loader s) (documents s) (Some v) (num_chars s) (text_splitter s)
    (embeddings s) (vectorstore s) (text s) (docs s) (retriever s) (chatbot s)
    (chat_history s) (query s) (result s).
Definition set_num_chars v (s : Vars) : Vars :=
  mkVars (pdf_loader s) (documents s) (num_docs s) (Some v) (text_splitter s)
    (embeddings s) (vectorstore s) (text s) (docs s) (retriever s) (chatbot s)
    (chat_history s) (query s) (result s).
Definition set_text_splitter v (s : Vars) : Vars :=
  mkVars (pdf_loader s) (documents s) (num_docs s) (num_chars s) (Some v)
    (embeddings s) (vectorstore s) (text s) (docs s) (retriever s) (chatbot s)
    (chat_history s) (query s) (result s).
Definition set_embeddings v (s : Vars) : Vars :=
  mkVars (pdf_loader s) (documents s) (num_docs s) (num_chars s) (text_splitter s)
    (Some v) (vectorstore s) (text s) (docs s) (retriever s) (chatbot s)
    (chat_history s) (query s) (result s).
Definition set_vectorstore v (s : Vars) : Vars :=
  mkVars (pdf_loader s) (documents s) (num_docs s) (num_chars s) (text_splitter s)
    (embeddings s) (Some v) (text s) (docs s) (retriever s) (chatbot s)
    (chat_history s) (query s) (result s).
Definition set_text v (s : Vars) : Vars :=
  mkVars (pdf_loader s) (documents s) (num_docs s) (num_chars s) (text_splitter s)
    (embeddings s) (vectorstore s) (Some v) (docs s) (retriever s) (chatbot s)
    (chat_history s) (query s) (result s).
Definition set_docs v (s : Vars) : Vars :=
  mkVars (pdf_loader s) (documents s) (num_docs s) (num_chars s) (text_splitter s)
    (embeddings s) (vectorstore s) (text s) (Some v) (retriever s) (chatbot s)
    (chat_history s) (query s) (result s).
Definition set_retriever v (s : Vars) : Vars :=
  mkVars (pdf_loader s) (documents s) (num_docs s) (num_chars s) (text_splitter s)
    (embeddings s) (vectorstore s) (text s) (docs s) (Some v) (chatbot s)
    (chat_history s) (query s) (result s).
Definition set_chatbot v (s : Vars) : Vars :=
  mkVars (pdf_loader s) (documents s) (num_docs s) (num_chars s) (text_splitter s)
    (embeddings s) (vectorstore s) (text s) (docs s) (retriever s) (Some v)
    (chat_history s) (query s) (result s).
Definition set_chat_history v (s : Vars) : Vars :=
  mkVars (pdf_loader s) (documents s) (num_docs s) (num_chars s) (text_splitter s)
    (embeddings s) (vectorstore s) (text s) (docs s) (retriever s) (chatbot s)
    (Some v) (query s) (result s).
Definition set_query v (s : Vars) : Vars :=
  mkVars (pdf_loader s) (documents s) (num_docs s) (num_chars s) (text_splitter s)
    (embeddings s) (vectorstore s) (text s) (docs s) (retriever s) (chatbot s)
    (chat_history s) (Some v) (result s).
Definition set_result v (s : Vars) : Vars :=
  mkVars (pdf_loader s) (documents s) (num_docs s) (num_chars s) (text_splitter s)
    (embeddings s) (vectorstore s) (text s) (docs s) (retriever s) (chatbot s)
    (chat_history s) (query s) (Some v).

(** ** The cells *)

(** Cell 2: [os.environ['OPENAI_API_KEY'] = getpass.getpass('OpenAI API Key:')]. *)
Definition cell2 : M unit :=
  key ← invoke (Getpass "OpenAI API Key:");
  environ_set "OPENAI_API_KEY" key.

(** The two lines cell 3 prints. *)
Definition found_documents (n : nat) : string :=
  "Found " ++ str n ++ " document(s) the provided directory".
Definition found_characters (n : nat) : string :=
  "Found " ++ str n ++ " characters in your document(s)".

(** Cell 3: build the loader, load into a fresh list, count, print. *)
Definition cell3 : M unit :=
  l ← invoke (DirectoryLoader "../documents/" "**/*.pdf");
  assign (set_pdf_loader l) ;;
  assign (set_documents []) ;;
  ds ← name "documents" documents;
  l ← name "pdf_loader" pdf_loader;
  loaded ← invoke (Load l);
  assign (set_documents (ds ++ loaded)) ;;
  ds ← name "documents" documents;
  assign (set_num_docs (length ds)) ;;
  ds ← name "documents" documents;
  assign (set_num_chars (sum (map (λ document, len (page_content document)) ds))) ;;
  n ← name "num_docs" num_docs;
  print (found_documents n) ;;
  n ← name "num_chars" num_chars;
  print (found_characters n).

(** Cell 4: split, rebind [documents] to the chunks, print how many. *)
Definition cell4 : M unit :=
  s ← invoke (CharacterTextSplitter 1000 40);
  assign (set_text_splitter s) ;;
  s ← name "text_splitter" text_splitter;
  ds ← name "documents" documents;
  chunks ← invoke (SplitDocuments s ds);
  assign (set_documents chunks) ;;
  ds ← name "documents" documents;
  print (str (length ds)).

(** Cell 5: the embedding function and the vector store. *)
Definition cell5 : M unit :=
  e ← invoke OpenAIEmbeddings;
  assign (set_embeddings e) ;;
  ds ← name "documents" documents;
  e ← name "embeddings" embeddings;
  vs ← invoke (ChromaFromDocuments ds e);
  assign (set_vectorstore vs).

Definition the_question : string := "What makes Retentive Networks good?".

(** Cell 6: one similarity search, kept in [docs]. *)
Definition cell6 : M unit :=
  assign (set_text the_question) ;;
  vs ← name "vectorstore" vectorstore;
  q ← name "text" text;
  found ← invoke (SimilaritySearch vs q);
  assign (set_docs found).

(** Cell 7: [print(docs[0].page_content)]. *)
Definition cell7 : M unit :=
  ds ← name "docs" docs;
  d ← first ds;
  print (page_content d).

(** Cell 8: the retriever and the conversational chain. *)
Definition cell8 : M unit :=
  vs ← name "vectorstore" vectorstore;
  r ← invoke (AsRetriever vs "similarity" {[ "k" := 2 ]});
  assign (set_retriever r) ;;
  llm ← invoke (OpenAI 0);
  r ← name "retriever" retriever;
  c ← invoke (FromLLM llm r);
  assign (set_chatbot c).

(** The last three lines of cell 9: ask the chain, record the turn, and
    leave the answer as the value of the cell. *)
Definition chat_turn : M string :=
  c ← name "chatbot" chatbot;
  q ← name "query" query;
  h ← name "chat_history" chat_history;
  r ← invoke (CallChain c q h);
  assign (set_result r) ;;
  h ← name "chat_history" chat_history;
  q ← name "query" query;
  r ← name "result" result;
  a ← getitem r "answer";
  assign (set_chat_history (h ++ [(q, a)])) ;;
  r ← name "result" result;
  getitem r "answer".

(** Cell 9: an empty history, the question, one turn. *)
Definition cell9 : M string :=
  assign (set_chat_history []) ;;
  assign (set_query the_question) ;;
  chat_turn.

(** The notebook, run from top to bottom.  Cell 1 only imports, and so do
    the first lines of cells 5 and 8. *)
Definition notebook : M string :=
  cell2 ;; cell3 ;; cell4 ;; cell5 ;; cell6 ;; cell7 ;; cell8 ;; cell9.

(** ** The stages of a run *)

(** What each stage of one run handed to the next. *)
Record Stages : Type := mkStages {
  api_key : string;
  loader : Loader;
  loaded : list Document;
  splitter : Splitter;
  chunks : list Document;
  embedder : Embeddings;
  store : VectorStore;
  found : list Document;
  retrieving : Retriever;
  model : LLM;
  chain : Chain;
  reply : gmap string string }.

(** The environment the stages after the prompt run in. *)
Definition keyed (env : gmap string string) (st : Stages) : gmap string string :=
  <["OPENAI_API_KEY" := api_key st]> env.

(** The calls of a run whose stages all returned, in order, each with the
    arguments of its cell and the result of the stage before it: the
    prompt; loading (the loader, [load]); splitting (the splitter,
    [split_documents]); embedding and storing (the embedding function,
    [from_documents]); the similarity search; answering (the retriever,
    the model, the chain, the question). *)
Definition calls (st : Stages) : list event :=
  [ Ev (Getpass "OpenAI API Key:") None;
    Ev (DirectoryLoader "../documents/" "**/*.pdf") None;
    Ev (Load (loader st)) None;
    Ev (CharacterTextSplitter 1000 40) None;
    Ev (SplitDocuments (splitter st) (loaded st)) None;
    Ev OpenAIEmbeddings None;
    Ev (ChromaFromDocuments (chunks st) (embedder st)) None;
    Ev (SimilaritySearch (store st) the_question) None;
    Ev (AsRetriever (store st) "similarity" {[ "k" := 2 ]}) None;
    Ev (OpenAI 0) None;
    Ev (FromLLM (model st) (retrieving st)) None;
    Ev (CallChain (chain st) the_question []) None ].

(** The library returned these results to those calls. *)
Definition returned (env : gmap string string) (st : Stages) : Prop :=
  lib env _ (Getpass "OpenAI API Key:") = Ok (api_key st) ∧
  lib (keyed env st) _ (DirectoryLoader "../documents/" "**/*.pdf") = Ok (loader st) ∧
  lib (keyed env st) _ (Load (loader st)) = Ok (loaded st) ∧
  lib (keyed env st) _ (CharacterTextSplitter 1000 40) = Ok (splitter st) ∧
  lib (keyed env st) _ (SplitDocuments (splitter st) (loaded st)) = Ok (chunks st) ∧
  lib (keyed env st) _ OpenAIEmbeddings = Ok (embedder st) ∧
  lib (keyed env st) _ (ChromaFromDocuments (chunks st) (embedder st)) = Ok (store st) ∧
  lib (keyed env st) _ (SimilaritySearch (store st) the_question) = Ok (found st) ∧
  lib (keyed env st) _ (AsRetriever (store st) "similarity" {[ "k" := 2 ]})
    = Ok (retrieving st) ∧
  lib (keyed env st) _ (OpenAI 0) = Ok (model st) ∧
  lib (keyed env st) _ (FromLLM (model st) (retrieving st)) = Ok (chain st) ∧
  lib (keyed env st) _ (CallChain (chain st) the_question []) = Ok (reply st).

(** The global variables at the end of such a run. *)
Definition final_vars (st : Stages) (answer : string) : Vars :=
  let n := length (loaded st) in
  let c := sum (map (λ document, len (page_content document)) (loaded st)) in
  mkVars (Some (loader st)) (Some (chunks st)) (Some n) (Some c)
    (Some (splitter st)) (Some (embedder st)) (Some (store st)) (Some the_question)
    (Some (found st)) (Some (retrieving st)) (Some (chain st))
    (Some [(the_question, answer)]) (Some the_question) (Some (reply st)).

End Notebook.

Arguments Ev {_ _} _ _.

(** ** What a statement may do to the environment and to the trace *)

Section Invariants.
Context `{Langchain}.

(** A statement that leaves [os.environ] as it found it. *)
Definition keeps_environ {A} (m : M A) : Prop :=
  ∀ k, environ (m k).2 = environ k.


End Invariants.

(** ** How far a run has come *)

Section Progress.
Context `{Langchain}.
Variable lib : gmap string string → ∀ T, call T → res T.








(** ** The notebook as one composition of calls *)




End Progress.

(** ** A small concrete library, to run the notebook on *)

Module Toy.

(** Objects are the arguments they were built from. *)
#[local] Instance objects : Langchain := {|
  Loader := string * string;
  Splitter := Z * Z;
  Embeddings := unit;
  VectorStore := list Document;
  Retriever := list Document * Z;
  LLM := Z;
  Chain := Z * (list Document * Z) |}.

Definition doc (s : string) : Document := mkDocument s ∅.

Definition k_of (kw : gmap string Z) : Z := default 4 (kw !! "k").

(** Three one-line documents.  The splitter keeps them whole, as a
    splitter does with a text that is shorter than a chunk; the store
    holds what it is given; a search returns the first entries; the
    chain answers with the text of the first entry it can retrieve. *)
Definition lib (env : gmap string string) (T : Type) (c : call T) : res T :=
  match c in call T return res T with
  | Getpass _ => Ok "sk-demo"
  | DirectoryLoader path glob => Ok (path, glob)
  | Load _ => Ok [doc "alpha"; doc "beta"; doc "gamma"]
  | CharacterTextSplitter size overlap => Ok (size, overlap)
  | SplitDocuments _ ds => Ok ds
  | OpenAIEmbeddings =>
      match env !! "OPENAI_API_KEY" with
      | Some _ => Ok tt
      | None => Raise (LibraryError "ValidationError")
      end
  | ChromaFromDocuments ds _ => Ok ds
  | SimilaritySearch vs _ => Ok (take 4 vs)
  | AsRetriever vs _ kw => Ok (vs, k_of kw)
  | OpenAI t => Ok t
  | FromLLM llm r => Ok (llm, r)
  | CallChain c q _ =>
      Ok {[ "question" := q;
            "answer" := match take (Z.to_nat (snd (snd c))) (fst (snd c)) with
                        | d :: _ => page_content d
                        | [] => "I don't know."
                        end ]}
  end.

(** What the stages of a run on this library hand over. *)
Definition corpus : list Document := [doc "alpha"; doc "beta"; doc "gamma"].

(** A kernel in the middle of a conversation. *)
Definition talking : Kernel :=
  mkKernel ∅ [] []
    (set_chat_history [("Hello?", "Hello.")]
       (set_query "And then?" (set_chatbot (0, (corpus, 2)) no_vars))).


End Toy.

(** ** Running a cell again *)

Section Reruns.
Context `{Langchain}.

(** A cell executed twice in a row in the same kernel. *)
Definition rerun {A} (cell : M A) : M A := cell ;; cell.

End Reruns.

(** ** Libraries and kernels for the edge cases *)

Module Scenarios.

(** No terminal to prompt on. *)
Definition no_terminal (env : gmap string string) (T : Type)
    (c : @call Toy.objects T) : res T :=
  match c in call T return res T with
  | Getpass _ => Raise (LibraryError "EOFError")
  | c => Toy.lib env _ c
  end.

(** The documents directory does not exist. *)
Definition no_directory (env : gmap string string) (T : Type)
    (c : @call Toy.objects T) : res T :=
  match c in call T return res T with
  | Load _ => Raise (LibraryError "FileNotFoundError")
  | c => Toy.lib env _ c
  end.


(** The chain replies without an answer. *)
Definition no_answer (env : gmap string string) (T : Type)
    (c : @call Toy.objects T) : res T :=
  match c in call T return res T with
  | CallChain _ q _ => Ok {[ "question" := q ]}
  | c => Toy.lib env _ c
  end.



(** A splitter that cuts every document down to its first letter and
    drops the documents it cannot shorten. *)
Definition initials (ds : list Document) : list Document :=
  omap (λ d, match page_content d with
             | String a (String _ _) => Some (Toy.doc (String a EmptyString))
             | _ => None
             end) ds.
Definition shortening (env : gmap string string) (T : Type)
    (c : @call Toy.objects T) : res T :=
  match c in call T return res T with
  | SplitDocuments _ ds => Ok (initials ds)
  | c => Toy.lib env _ c
  end.

(** A kernel with documents loaded, and one with a chain and an earlier
    conversation. *)
Definition loaded : @Kernel Toy.objects :=
  mkKernel ∅ [] [] (set_documents Toy.corpus no_vars).
Definition chatting : @Kernel Toy.objects :=
  mkKernel ∅ [] []
    (set_chat_history [("Hello?", "Hello.")]
       (set_chatbot (H := Toy.objects) (0, (Toy.corpus, 2)) no_vars)).

End Scenarios.

(** ** Properties of the notebook, for every library *)

Section Properties.
Context `{Langchain}.
Variable lib : gmap string string → ∀ T, call T → res T.

Ltac unfold_cells :=
  unfold notebook, cell2, cell3, cell4, cell5, cell6, cell7, cell8, cell9, chat_turn.
Ltac unfold_statements :=
  unfold mbind, M_bind, bind, invoke, assign, name, print, environ_set, getitem.
Tactic Notation "unfold_run" "in" hyp(H) :=
  unfold notebook, cell2, cell3, cell4, cell5, cell6, cell7, cell8, cell9,
    chat_turn in H;
  unfold mbind, M_bind, bind, invoke, assign, name, print, environ_set, getitem in H.

(** *** Counting and printing *)

Lemma fold_add_acc (l : list nat) (acc : nat) :
  fold_left Nat.add l acc = (acc + sum_list l)%nat.
Proof.
  revert acc. induction l as [|n l IH]; intros acc; simpl.
  - lia.
  - rewrite IH. lia.
Qed.

Lemma sum_sum_list (l : list nat) : sum l = sum_list l.
Proof. unfold sum. by rewrite fold_add_acc. Qed.

(** The decimal numeral that is printed reads back as the number. *)
Lemma str_read (n : nat) :
  Nat.of_uint <$> NilEmpty.uint_of_string (str n) = Some n.
Proof.
  unfold str. rewrite NilEmpty.usu. simpl. f_equal. apply DecimalNat.Unsigned.of_to.
Qed.

Lemma str_inj (n m : nat) : str n = str m → n = m.
Proof.
  intros E. pose proof (str_read n) as Hn. rewrite E, str_read in Hn. congruence.
Qed.

(** Cell 3 when the loader is built and returns [ds]. *)
Lemma cell3_run (k : Kernel) (l : Loader) (ds : list Document) :
  lib (environ k) _ (DirectoryLoader "../documents/" "**/*.pdf") = Ok l →
  lib (environ k) _ (Load l) = Ok ds →
  let n := length ds in
  let c := sum (map (λ d, len (page_content d)) ds) in
  cell3 lib k =
    (Ok tt,
     mkKernel (environ k)
       (stdout k ++ [found_documents n; found_characters c])
       (trace k ++ [Ev (DirectoryLoader "../documents/" "**/*.pdf") None;
                    Ev (Load l) None])
       (set_num_chars c (set_num_docs n (set_documents ds (set_pdf_loader l (vars k)))))).
Proof.
  intros Hl Hds n c. unfold_cells. unfold_statements. simpl.
  rewrite Hl. simpl. rewrite Hds. simpl.
  by rewrite <- !(assoc_L (++)).
Qed.

(** C8: when the loader returns [ds], cell 3 raises nothing, prints the
    length of [ds] as the document count and the sum of the lengths of
    the page contents as the character count; for the empty list both
    printed counts are 0. *)
Theorem cell3_prints_counts (k : Kernel) (l : Loader) (ds : list Document) :
  lib (environ k) _ (DirectoryLoader "../documents/" "**/*.pdf") = Ok l →
  lib (environ k) _ (Load l) = Ok ds →
  let n := length ds in
  let c := sum_list ((λ d, String.length (page_content d)) <$> ds) in
  (cell3 lib k).1 = Ok tt ∧
  documents (vars (cell3 lib k).2) = Some ds ∧
  num_docs (vars (cell3 lib k).2) = Some n ∧
  num_chars (vars (cell3 lib k).2) = Some c ∧
  stdout (cell3 lib k).2 = (stdout k ++ [found_documents n; found_characters c])%list ∧
  (ds = [] →
   stdout (cell3 lib k).2 =
     (stdout k ++ ["Found 0 document(s) the provided directory";
                   "Found 0 characters in your document(s)"])%list).
Proof.
  intros Hl Hds n c. rewrite (cell3_run k l ds Hl Hds).
  cbn [fst snd vars stdout set_num_chars set_num_docs set_documents documents
       num_docs num_chars].
  rewrite sum_sum_list. unfold len. fold n c.
  repeat split. intros E. subst n c. by rewrite E.
Qed.

(** *** The process environment *)

Lemma keeps_environ_bind {A B} (m : M A) (f : A → M B) :
  keeps_environ m → (∀ a, keeps_environ (f a)) → keeps_environ (m ≫= f).
Proof.
  intros Hm Hf k. unfold mbind, M_bind, bind.
  specialize (Hm k). destruct (m k) as [[a|e] k1]; simpl in *.
  - by rewrite Hf.
  - done.
Qed.

Lemma keeps_environ_invoke {T} (c : call T) : keeps_environ (invoke lib c).
Proof. by intros k. Qed.
Lemma keeps_environ_name {A} x (var : Vars → option A) : keeps_environ (name x var).
Proof. intros k. unfold name. by destruct (var (vars k)). Qed.
Lemma keeps_environ_assign upd : keeps_environ (assign upd).
Proof. by intros k. Qed.
Lemma keeps_environ_print s : keeps_environ (print s).
Proof. by intros k. Qed.
Lemma keeps_environ_first {A} (l : list A) : keeps_environ (first l).
Proof. intros k. by destruct l. Qed.
Lemma keeps_environ_getitem d key : keeps_environ (getitem d key).
Proof. intros k. unfold getitem. by destruct (d !! key). Qed.

Create HintDb environ discriminated.
#[local] Hint Resolve keeps_environ_invoke keeps_environ_name keeps_environ_assign
  keeps_environ_print keeps_environ_first keeps_environ_getitem : environ.
#[local] Hint Extern 1 (keeps_environ (_ ≫= _)) =>
  apply keeps_environ_bind; [|intros ?] : environ.






(** *** Exceptions *)




(** *** Successful runs *)

Lemma notebook_run (k : Kernel) (a : string) (k' : Kernel) :
  notebook lib k = (Ok a, k') →
  ∃ st d0,
    returned lib (environ k) st ∧
    has_nul (api_key st) = false ∧
    head (found st) = Some d0 ∧
    reply st !! "answer" = Some a ∧
    environ k' = keyed (environ k) st ∧
    stdout k' =
      (stdout k ++
       [ found_documents (length (loaded st));
         found_characters (sum (map (λ d, len (page_content d)) (loaded st)));
         str (length (chunks st));
         page_content d0 ])%list ∧
    trace k' = (trace k ++ calls st)%list ∧
    vars k' = final_vars st a.
Proof.
  intros Hrun.
  unfold_run in Hrun. simpl in Hrun.
  destruct (lib _ _ (Getpass _)) as [key|] eqn:Ekey; simpl in Hrun; [|discriminate].
  destruct (has_nul key) eqn:Hnul; simpl in Hrun; [discriminate|].
  destruct (lib _ _ (DirectoryLoader _ _)) as [l|] eqn:El; simpl in Hrun; [|discriminate].
  destruct (lib _ _ (Load _)) as [ds|] eqn:Eds; simpl in Hrun; [|discriminate].
  destruct (lib _ _ (CharacterTextSplitter _ _)) as [s|] eqn:Es; simpl in Hrun;
    [|discriminate].
  destruct (lib _ _ (SplitDocuments _ _)) as [cs|] eqn:Ecs; simpl in Hrun; [|discriminate].
  destruct (lib _ _ OpenAIEmbeddings) as [e|] eqn:Ee; simpl in Hrun; [|discriminate].
  destruct (lib _ _ (ChromaFromDocuments _ _)) as [vs|] eqn:Evs; simpl in Hrun;
    [|discriminate].
  destruct (lib _ _ (SimilaritySearch _ _)) as [fs|] eqn:Efs; simpl in Hrun; [|discriminate].
  destruct fs as [|d0 fs']; simpl in Hrun; [discriminate|].
  destruct (lib _ _ (AsRetriever _ _ _)) as [r|] eqn:Er; simpl in Hrun; [|discriminate].
  destruct (lib _ _ (OpenAI _)) as [llm|] eqn:Ellm; simpl in Hrun; [|discriminate].
  destruct (lib _ _ (FromLLM _ _)) as [c|] eqn:Ec; simpl in Hrun; [|discriminate].
  destruct (lib _ _ (CallChain _ _ _)) as [out|] eqn:Eout; simpl in Hrun; [|discriminate].
  destruct (out !! "answer") as [ans|] eqn:Eans; simpl in Hrun; [|discriminate].
  rewrite Eans in Hrun. unfold ret in Hrun. injection Hrun as <- <-.
  exists (mkStages key l ds s cs e vs (d0 :: fs') r llm c out), d0. simpl.
  split; [by repeat split|].
  repeat split; try done.
  - by rewrite <- !(assoc_L (++)).
  - by rewrite <- !(assoc_L (++)).
Qed.




(** *** The chat history *)

(** C4, as amended: cell 9 starts from an empty history whatever was
    recorded before, asks the chain once with that empty history, and
    leaves [chat_history] holding the one pair of the question and the
    answer.  It rebinds [chat_history], [query] and [result] and no
    other name, makes no other call and prints nothing. *)
Theorem cell9_records_one_turn (k : Kernel) (c : Chain)
    (out : gmap string string) (a : string) :
  chatbot (vars k) = Some c →
  lib (environ k) _ (CallChain c the_question []) = Ok out →
  out !! "answer" = Some a →
  cell9 lib k =
    (Ok a,
     mkKernel (environ k) (stdout k)
       (trace k ++ [Ev (CallChain c the_question []) None])
       (set_chat_history [(the_question, a)]
          (set_result out
             (set_query the_question (set_chat_history [] (vars k)))))).
Proof.
  intros Hc Hout Ha. unfold_cells. unfold_statements. simpl.
  by repeat (progress (rewrite ?Hc, ?Hout, ?Ha; simpl)).
Qed.

(** *** What the vector store is built from *)



End Properties.

(** ** The properties at work on the concrete libraries *)

Lemma cell3_prints_counts_witness :
  stdout (cell3 Toy.lib (fresh ∅)).2 =
    [ "Found 3 document(s) the provided directory";
      "Found 14 characters in your document(s)" ].
Proof.
  apply (cell3_prints_counts Toy.lib (fresh ∅) ("../documents/", "**/*.pdf")
           Toy.corpus eq_refl eq_refl).
Defined.





(** Cell 9 run on a kernel that holds an earlier turn: the turn is gone
    afterwards, and [query] and [result] are bound where they were
    not. *)
Lemma cell9_discards_earlier_turns :
  chat_history (vars Scenarios.chatting) = Some [("Hello?", "Hello.")] ∧
  (cell9 Toy.lib Scenarios.chatting).1 = Ok "alpha" ∧
  chat_history (vars (cell9 Toy.lib Scenarios.chatting).2)
    ≠ Some [("Hello?", "Hello."); (the_question, "alpha")] ∧
  query (vars (cell9 Toy.lib Scenarios.chatting).2) ≠ query (vars Scenarios.chatting) ∧
  result (vars (cell9 Toy.lib Scenarios.chatting).2) ≠ result (vars Scenarios.chatting).
Proof.
  split; [reflexivity|]. split; [by vm_compute|].
  repeat split; intros E; vm_compute in E; discriminate.
Qed.

Lemma cell9_records_one_turn_witness :
  chat_history (vars (cell9 Toy.lib Scenarios.chatting).2)
    = Some [(the_question, "alpha")].
Proof.
  assert (cell9 Toy.lib Scenarios.chatting =
            (Ok "alpha",
             mkKernel ∅ [] [Ev (CallChain (H := Toy.objects) (0, (Toy.corpus, 2))
                                  the_question []) None]
               (set_chat_history [(the_question, "alpha")]
                  (set_result {[ "question" := the_question; "answer" := "alpha" ]}
                     (set_query the_question
                        (set_chat_history [] (vars Scenarios.chatting))))))) as E.
  { refine (cell9_records_one_turn Toy.lib Scenarios.chatting (0, (Toy.corpus, 2))
              {[ "question" := the_question; "answer" := "alpha" ]} "alpha" _ _ _);
      vm_compute; reflexivity. }
  exact (f_equal (λ p, chat_history (vars p.2)) E).
Defined.



(** ** Further properties: edge cases, failures and re-execution *)

Section Further.
Context `{Langchain}.
Variable lib : gmap string string → ∀ T, call T → res T.

Ltac run_statements :=
  unfold rerun, mbind, M_bind, bind, invoke, assign, name, print, environ_set,
    getitem, first, ret, raise.
Tactic Notation "run_statements" "in" hyp(E) :=
  unfold rerun, mbind, M_bind, bind, invoke, assign, name, print, environ_set,
    getitem, first, ret, raise in E.


(** X2: when the prompt itself raises, the notebook ends with that
    exception having made no other call: the environment, the output and
    the variables are as before. *)
Theorem prompt_failure_touches_nothing (k : Kernel) (e : exn) :
  lib (environ k) _ (Getpass "OpenAI API Key:") = Raise e →
  notebook lib k =
    (Raise e,
     mkKernel (environ k) (stdout k)
       (trace k ++ [Ev (Getpass "OpenAI API Key:") (Some e)]) (vars k)).
Proof.
  intros He.
  assert (cell2 lib k =
            (Raise e,
             mkKernel (environ k) (stdout k)
               (trace k ++ [Ev (Getpass "OpenAI API Key:") (Some e)]) (vars k))) as E.
  { unfold cell2, mbind, M_bind, bind, invoke. cbv beta iota zeta. by rewrite He. }
  unfold notebook. unfold mbind at 1. unfold M_bind, bind. by rewrite E.
Qed.

(** X3: when the loader is built but [load] raises, cell 3 ends with that
    exception after [documents] was bound to the empty list: the name is
    bound and empty, nothing is counted and nothing is printed. *)
Theorem failed_load_leaves_empty_documents (k : Kernel) (l : Loader) (e : exn) :
  lib (environ k) _ (DirectoryLoader "../documents/" "**/*.pdf") = Ok l →
  lib (environ k) _ (Load l) = Raise e →
  ∃ k',
    cell3 lib k = (Raise e, k') ∧
    documents (vars k') = Some [] ∧
    pdf_loader (vars k') = Some l ∧
    num_docs (vars k') = num_docs (vars k) ∧
    num_chars (vars k') = num_chars (vars k) ∧
    stdout k' = stdout k.
Proof.
  intros Hl He. unfold cell3. run_statements. simpl.
  rewrite Hl. simpl. rewrite He. simpl.
  eexists. split; [reflexivity|]. by repeat split.
Qed.

(** X4: executing cell 3 a second time loads afresh: [documents] holds
    the loaded list once, not twice, and the counts are those of one
    load; only the two lines are printed again. *)
Theorem cell3_rerun_does_not_duplicate (k : Kernel) (l : Loader) (ds : list Document) :
  lib (environ k) _ (DirectoryLoader "../documents/" "**/*.pdf") = Ok l →
  lib (environ k) _ (Load l) = Ok ds →
  let n := length ds in
  let c := sum (map (λ d, len (page_content d)) ds) in
  ∃ k',
    rerun (cell3 lib) k = (Ok tt, k') ∧
    documents (vars k') = Some ds ∧
    num_docs (vars k') = Some n ∧
    num_chars (vars k') = Some c ∧
    vars k' = vars (cell3 lib k).2 ∧
    stdout k' =
      (stdout k ++ [found_documents n; found_characters c;
                    found_documents n; found_characters c])%list.
Proof.
  intros Hl Hds n c. unfold rerun, mbind, M_bind, bind. cbv beta. eexists.
  rewrite (cell3_run lib k l ds Hl Hds). cbv beta iota zeta.
  rewrite (cell3_run lib (mkKernel (environ k) _ _ _) l ds Hl Hds).
  cbv beta iota zeta. fold n c.
  split; [reflexivity|]. simpl.
  repeat split. by rewrite <- (assoc_L (++)).
Qed.

(** Cell 4 on a kernel where [documents] is bound. *)
Lemma cell4_run (k : Kernel) (ds : list Document) (s : Splitter) (cs : list Document) :
  documents (vars k) = Some ds →
  lib (environ k) _ (CharacterTextSplitter 1000 40) = Ok s →
  lib (environ k) _ (SplitDocuments s ds) = Ok cs →
  cell4 lib k =
    (Ok tt,
     mkKernel (environ k) (stdout k ++ [str (length cs)])
       (trace k ++ [Ev (CharacterTextSplitter 1000 40) None;
                    Ev (SplitDocuments s ds) None])
       (set_documents cs (set_text_splitter s (vars k)))).
Proof.
  intros Hds Hs Hcs. unfold cell4. run_statements. simpl.
  rewrite Hs. simpl. rewrite Hds. simpl. rewrite Hcs. simpl.
  by rewrite <- !(assoc_L (++)).
Qed.

(** X5: cell 4 prints the number of chunks and rebinds [documents], but
    leaves [num_docs] and [num_chars] as they were: after the split they
    still count the unsplit documents. *)
Theorem cell4_counts_chunks (k : Kernel) (ds : list Document) (s : Splitter)
    (cs : list Document) :
  documents (vars k) = Some ds →
  lib (environ k) _ (CharacterTextSplitter 1000 40) = Ok s →
  lib (environ k) _ (SplitDocuments s ds) = Ok cs →
  ∃ k',
    cell4 lib k = (Ok tt, k') ∧
    documents (vars k') = Some cs ∧
    stdout k' = (stdout k ++ [str (length cs)])%list ∧
    num_docs (vars k') = num_docs (vars k) ∧
    num_chars (vars k') = num_chars (vars k).
Proof.
  intros Hds Hs Hcs. eexists. rewrite (cell4_run k ds s cs Hds Hs Hcs).
  split; [reflexivity|]. by repeat split.
Qed.

(** X6: executing cell 4 a second time splits the chunks of the first
    execution again: [documents] ends as the split of the split, and the
    second printed number is the count of those. *)
Theorem cell4_rerun_splits_the_chunks (k : Kernel) (ds : list Document)
    (s : Splitter) (cs cs2 : list Document) :
  documents (vars k) = Some ds →
  lib (environ k) _ (CharacterTextSplitter 1000 40) = Ok s →
  lib (environ k) _ (SplitDocuments s ds) = Ok cs →
  lib (environ k) _ (SplitDocuments s cs) = Ok cs2 →
  ∃ k',
    rerun (cell4 lib) k = (Ok tt, k') ∧
    documents (vars k') = Some cs2 ∧
    stdout k' = (stdout k ++ [str (length cs); str (length cs2)])%list.
Proof.
  intros Hds Hs Hcs Hcs2. unfold rerun, mbind, M_bind, bind. cbv beta. eexists.
  rewrite (cell4_run k ds s cs Hds Hs Hcs). cbv beta iota zeta.
  rewrite (cell4_run
             (mkKernel (environ k) _ _ (set_documents cs (set_text_splitter s (vars k))))
             cs s cs2 eq_refl Hs Hcs2).
  split; [reflexivity|]. simpl. split; [done|].
  by rewrite <- (assoc_L (++)).
Qed.


(** X8: executing cell 9 a second time does not continue the
    conversation: the chain is called with an empty history again, and
    afterwards the history holds the one new turn only. *)
Theorem cell9_rerun_keeps_one_turn (k : Kernel) (c : Chain)
    (out : gmap string string) (a : string) :
  chatbot (vars k) = Some c →
  lib (environ k) _ (CallChain c the_question []) = Ok out →
  out !! "answer" = Some a →
  ∃ k',
    rerun (cell9 lib) k = (Ok a, k') ∧
    chat_history (vars k') = Some [(the_question, a)] ∧
    trace k' =
      (trace k ++ [Ev (CallChain c the_question []) None;
                   Ev (CallChain c the_question []) None])%list.
Proof.
  intros Hc Hout Ha. unfold cell9, chat_turn. run_statements. simpl.
  repeat (progress (rewrite ?Hc, ?Hout, ?Ha; simpl)).
  eexists. split; [reflexivity|]. simpl. split; [done|].
  by rewrite <- (assoc_L (++)).
Qed.

(** X9: a turn that ends with an exception, whatever the cause (an
    unbound name, the chain raising, a reply without an answer), leaves
    the chat history and the other inputs of the conversation as they
    were, and prints nothing. *)
Theorem failed_turn_keeps_history (k : Kernel) (e : exn) :
  (chat_turn lib k).1 = Raise e →
  chat_history (vars (chat_turn lib k).2) = chat_history (vars k) ∧
  query (vars (chat_turn lib k).2) = query (vars k) ∧
  chatbot (vars (chat_turn lib k).2) = chatbot (vars k) ∧
  documents (vars (chat_turn lib k).2) = documents (vars k) ∧
  vectorstore (vars (chat_turn lib k).2) = vectorstore (vars k) ∧
  retriever (vars (chat_turn lib k).2) = retriever (vars k) ∧
  environ (chat_turn lib k).2 = environ k ∧
  stdout (chat_turn lib k).2 = stdout k.
Proof.
  destruct (chat_turn lib k) as [r k'] eqn:E. simpl. intros ->.
  unfold chat_turn in E. run_statements in E. simpl in E.
  destruct (chatbot (vars k)) as [c|] eqn:Hc; simpl in E;
    [|by injection E as _ <-].
  destruct (query (vars k)) as [q|] eqn:Hq; simpl in E;
    [|by injection E as _ <-].
  destruct (chat_history (vars k)) as [h|] eqn:Hh; simpl in E;
    [|by injection E as _ <-].
  destruct (lib _ _ (CallChain _ _ _)) as [out|] eqn:Hout; simpl in E;
    [|by injection E as _ <-].
  repeat (progress (rewrite ?Hh, ?Hq in E; simpl in E)).
  destruct (out !! "answer") as [a|] eqn:Ha; simpl in E.
  - rewrite ?Ha in E. simpl in E. discriminate.
  - by injection E as _ <-.
Qed.

(** X10: when the chain's reply has no "answer", the turn raises
    [KeyError]: [result] is bound to the reply, the call is in the trace,
    and the history is unchanged. *)
Theorem reply_without_answer_raises_key_error (k : Kernel) (c : Chain) (q : string)
    (h : list (string * string)) (out : gmap string string) :
  chatbot (vars k) = Some c →
  query (vars k) = Some q →
  chat_history (vars k) = Some h →
  lib (environ k) _ (CallChain c q h) = Ok out →
  out !! "answer" = None →
  ∃ k',
    chat_turn lib k = (Raise (KeyError "answer"), k') ∧
    result (vars k') = Some out ∧
    chat_history (vars k') = Some h ∧
    trace k' = (trace k ++ [Ev (CallChain c q h) None])%list.
Proof.
  intros Hc Hq Hh Hout Ha. unfold chat_turn. run_statements. simpl.
  repeat (progress (rewrite ?Hc, ?Hq, ?Hh, ?Hout, ?Ha; simpl)).
  eexists. split; [reflexivity|]. by repeat split.
Qed.

(** X11: without a vector store, cells 6 and 8 raise [NameError] before
    any library call: cell 6 has only bound [text], cell 8 has changed
    nothing at all. *)
Theorem search_and_retriever_need_vectorstore (k : Kernel) :
  vectorstore (vars k) = None →
  cell6 lib k =
    (Raise (NameError "vectorstore"),
     mkKernel (environ k) (stdout k) (trace k) (set_text the_question (vars k))) ∧
  cell8 lib k = (Raise (NameError "vectorstore"), k).
Proof.
  intros Hvs. unfold cell6, cell8. run_statements. simpl. by rewrite Hvs.
Qed.

(** X12: without [documents], cells 4 and 5 still build the splitter and
    the embedding function, a library call each, and bind them; only then
    do they raise [NameError], before splitting or storing anything. *)
Theorem split_and_store_need_documents (k : Kernel) (s : Splitter) (e : Embeddings) :
  documents (vars k) = None →
  lib (environ k) _ (CharacterTextSplitter 1000 40) = Ok s →
  lib (environ k) _ OpenAIEmbeddings = Ok e →
  cell4 lib k =
    (Raise (NameError "documents"),
     mkKernel (environ k) (stdout k)
       (trace k ++ [Ev (CharacterTextSplitter 1000 40) None])
       (set_text_splitter s (vars k))) ∧
  cell5 lib k =
    (Raise (NameError "documents"),
     mkKernel (environ k) (stdout k) (trace k ++ [Ev OpenAIEmbeddings None])
       (set_embeddings e (vars k))).
Proof.
  intros Hds Hs He. unfold cell4, cell5. run_statements. simpl.
  rewrite Hs, He. simpl. by rewrite Hds.
Qed.

(** X13: after a run that returns, the chat history holds exactly one
    turn, the question of cell 9 with the value the notebook displays;
    that value is the "answer" of the reply bound to [result], and the
    text searched for in cell 6 is the same question. *)
Theorem full_run_records_one_turn (k : Kernel) (a : string) (k' : Kernel) :
  notebook lib k = (Ok a, k') →
  chat_history (vars k') = Some [(the_question, a)] ∧
  query (vars k') = Some the_question ∧
  text (vars k') = Some the_question ∧
  ∃ out, result (vars k') = Some out ∧ out !! "answer" = Some a.
Proof.
  intros Hrun.
  apply notebook_run in Hrun as (st & d0 & _ & _ & _ & Ha & _ & _ & _ & ->).
  simpl. repeat split. by exists (reply st).
Qed.

(** X14: a run that returns has called [print] exactly four times: with
    the number of documents [load] returned and the number of their
    characters, with the number of chunks [split_documents] returned,
    and with the text of the first document the search returned.  At
    the end [num_docs] still counts the loaded documents while
    [documents] holds the chunks. *)
Theorem full_run_makes_four_prints (k : Kernel) (a : string) (k' : Kernel) :
  notebook lib k = (Ok a, k') →
  ∃ st d0,
    returned lib (environ k) st ∧
    head (found st) = Some d0 ∧
    stdout k' =
      (stdout k ++
       [ found_documents (length (loaded st));
         found_characters
           (sum_list ((λ d, String.length (page_content d)) <$> loaded st));
         str (length (chunks st));
         page_content d0 ])%list ∧
    num_docs (vars k') = Some (length (loaded st)) ∧
    documents (vars k') = Some (chunks st) ∧
    docs (vars k') = Some (found st).
Proof.
  intros Hrun.
  apply notebook_run in Hrun as (st & d0 & Hst & _ & Hd0 & _ & _ & Hout & _ & Hvars).
  exists st, d0. rewrite Hvars, Hout, sum_sum_list. simpl.
  split; [exact Hst|]. split; [exact Hd0|]. by repeat split.
Qed.

Ltac halt E :=
  injection E as _ <-; simpl; rewrite <- ?(assoc_L (++)); simpl;
  eexists _, _; split; [reflexivity|];
  split; [first [reflexivity | by rewrite app_nil_r]|]; simpl; lia.

(** X15: whatever the library does, one run of the notebook makes at most
    twelve library calls and at most four calls of [print], and it only
    adds to the trace and to the output it started with. *)
Theorem notebook_is_bounded (k : Kernel) :
  ∃ tr out,
    trace (notebook lib k).2 = (trace k ++ tr)%list ∧
    stdout (notebook lib k).2 = (stdout k ++ out)%list ∧
    (length tr ≤ 12)%nat ∧ (length out ≤ 4)%nat.
Proof.
  destruct (notebook lib k) as [r k'] eqn:E. simpl.
  unfold notebook, cell2, cell3, cell4, cell5, cell6, cell7, cell8, cell9,
    chat_turn in E.
  run_statements in E. simpl in E.
  destruct (lib _ _ (Getpass _)) as [key|]; simpl in E; [|halt E].
  destruct (has_nul key); simpl in E; [halt E|].
  destruct (lib _ _ (DirectoryLoader _ _)); simpl in E; [|halt E].
  destruct (lib _ _ (Load _)); simpl in E; [|halt E].
  destruct (lib _ _ (CharacterTextSplitter _ _)); simpl in E; [|halt E].
  destruct (lib _ _ (SplitDocuments _ _)); simpl in E; [|halt E].
  destruct (lib _ _ OpenAIEmbeddings); simpl in E; [|halt E].
  destruct (lib _ _ (ChromaFromDocuments _ _)); simpl in E; [|halt E].
  destruct (lib _ _ (SimilaritySearch _ _)) as [[|d0 fs]|]; simpl in E;
    [halt E| |halt E].
  destruct (lib _ _ (AsRetriever _ _ _)); simpl in E; [|halt E].
  destruct (lib _ _ (OpenAI _)); simpl in E; [|halt E].
  destruct (lib _ _ (FromLLM _ _)); simpl in E; [|halt E].
  destruct (lib _ _ (CallChain _ _ _)) as [out|]; simpl in E; [|halt E].
  destruct (out !! "answer") eqn:Ha; simpl in E; [|halt E].
  rewrite ?Ha in E. simpl in E. halt E.
Qed.



End Further.

(** ** The further properties at work *)

Lemma prompt_failure_touches_nothing_witness :
  notebook Scenarios.no_terminal (fresh ∅) =
    (Raise (LibraryError "EOFError"),
     mkKernel ∅ [] [Ev (Getpass "OpenAI API Key:") (Some (LibraryError "EOFError"))]
       no_vars).
Proof.
  exact (prompt_failure_touches_nothing Scenarios.no_terminal (fresh ∅)
           (LibraryError "EOFError") eq_refl).
Defined.

Lemma failed_load_leaves_empty_documents_witness :
  ∃ k', cell3 Scenarios.no_directory (fresh ∅)
          = (Raise (LibraryError "FileNotFoundError"), k') ∧
        documents (vars k') = Some [].
Proof.
  pose proof (failed_load_leaves_empty_documents Scenarios.no_directory (fresh ∅)
                ("../documents/", "**/*.pdf") (LibraryError "FileNotFoundError")
                eq_refl eq_refl) as (k' & E & Hd & _).
  exists k'. split; [exact E | exact Hd].
Defined.

Lemma cell3_rerun_does_not_duplicate_witness :
  ∃ k', rerun (cell3 Toy.lib) (fresh ∅) = (Ok tt, k') ∧
        documents (vars k') = Some Toy.corpus.
Proof.
  pose proof (cell3_rerun_does_not_duplicate Toy.lib (fresh ∅)
                ("../documents/", "**/*.pdf") Toy.corpus eq_refl eq_refl)
    as (k' & E & Hd & _).
  exists k'. split; [exact E | exact Hd].
Defined.

Lemma cell4_counts_chunks_witness :
  ∃ k', cell4 Scenarios.shortening Scenarios.loaded = (Ok tt, k') ∧
        documents (vars k') = Some [Toy.doc "a"; Toy.doc "b"; Toy.doc "g"] ∧
        stdout k' = ["3"] ∧
        num_docs (vars k') = None.
Proof.
  pose proof (cell4_counts_chunks Scenarios.shortening Scenarios.loaded Toy.corpus
                (1000, 40) (Scenarios.initials Toy.corpus) eq_refl eq_refl eq_refl)
    as (k' & E & Hd & Hout & Hn & _).
  exists k'. split; [exact E|]. split; [exact Hd|]. split; [exact Hout | exact Hn].
Defined.

Lemma cell4_rerun_splits_the_chunks_witness :
  ∃ k', rerun (cell4 Scenarios.shortening) Scenarios.loaded = (Ok tt, k') ∧
        documents (vars k') = Some [] ∧
        stdout k' = ["3"; "0"].
Proof.
  exact (cell4_rerun_splits_the_chunks Scenarios.shortening Scenarios.loaded
           Toy.corpus (1000, 40) (Scenarios.initials Toy.corpus) []
           eq_refl eq_refl eq_refl eq_refl).
Defined.


Lemma cell9_rerun_keeps_one_turn_witness :
  ∃ k', rerun (cell9 Toy.lib) Scenarios.chatting = (Ok "alpha", k') ∧
        chat_history (vars k') = Some [(the_question, "alpha")].
Proof.
  edestruct (cell9_rerun_keeps_one_turn Toy.lib Scenarios.chatting (0, (Toy.corpus, 2))
               {[ "question" := the_question; "answer" := "alpha" ]} "alpha")
    as (k' & E & Hh & _); [vm_compute; reflexivity ..|].
  exists k'. split; [exact E | exact Hh].
Defined.

Lemma failed_turn_keeps_history_witness :
  chat_history (vars (chat_turn Scenarios.no_answer Toy.talking).2)
    = Some [("Hello?", "Hello.")].
Proof.
  assert ((chat_turn Scenarios.no_answer Toy.talking).1 = Raise (KeyError "answer"))
    as E by (vm_compute; reflexivity).
  exact (proj1 (failed_turn_keeps_history Scenarios.no_answer Toy.talking _ E)).
Defined.

Lemma reply_without_answer_raises_key_error_witness :
  ∃ k', chat_turn Scenarios.no_answer Toy.talking = (Raise (KeyError "answer"), k') ∧
        chat_history (vars k') = Some [("Hello?", "Hello.")].
Proof.
  edestruct (reply_without_answer_raises_key_error Scenarios.no_answer Toy.talking
               (0, (Toy.corpus, 2)) "And then?" [("Hello?", "Hello.")]
               {[ "question" := "And then?" ]})
    as (k' & E & _ & Hh & _); [vm_compute; reflexivity ..|].
  exists k'. split; [exact E | exact Hh].
Defined.

Lemma search_and_retriever_need_vectorstore_witness :
  cell8 Toy.lib (fresh ∅) = (Raise (NameError "vectorstore"), fresh ∅).
Proof.
  exact (proj2 (search_and_retriever_need_vectorstore Toy.lib (fresh ∅) eq_refl)).
Defined.

Lemma split_and_store_need_documents_witness :
  (cell5 Toy.lib (fresh {[ "OPENAI_API_KEY" := "sk-demo" ]})).1
    = Raise (NameError "documents").
Proof.
  edestruct (split_and_store_need_documents Toy.lib
               (fresh {[ "OPENAI_API_KEY" := "sk-demo" ]}) (1000, 40) tt)
    as (_ & E); [vm_compute; reflexivity ..|].
  exact (f_equal fst E).
Defined.

Lemma full_run_records_one_turn_witness :
  chat_history (vars (notebook Toy.lib (fresh ∅)).2) = Some [(the_question, "alpha")].
Proof.
  assert (notebook Toy.lib (fresh ∅) = (Ok "alpha", (notebook Toy.lib (fresh ∅)).2))
    as Hrun by (vm_compute; reflexivity).
  exact (proj1 (full_run_records_one_turn Toy.lib (fresh ∅) "alpha" _ Hrun)).
Defined.

Lemma full_run_makes_four_prints_witness :
  ∃ st : @Stages Toy.objects,
    returned Toy.lib ∅ st ∧
    num_docs (vars (notebook Toy.lib (fresh ∅)).2) = Some (length (loaded st)).
Proof.
  assert (notebook Toy.lib (fresh ∅) = (Ok "alpha", (notebook Toy.lib (fresh ∅)).2))
    as Hrun by (vm_compute; reflexivity).
  pose proof (full_run_makes_four_prints Toy.lib (fresh ∅) "alpha" _ Hrun)
    as (st & d0 & Hst & _ & _ & Hn & _).
  exists st. split; [exact Hst | exact Hn].
Defined.

